(** * fractrade-executor: the action dispatcher and its handlers

    A shallow embedding of [src/fractrade_executor/executor.py]:
    the values that [json.loads] hands to the dispatcher, the Python
    builtins the handlers use on them ([dict.get], [float], [str.upper],
    truthiness), the trading client as an interface whose calls are
    recorded, and the handlers themselves as computations in a small
    state-and-exception monad. *)

From Stdlib Require Import ZArith String Ascii List Bool Lia.
From Stdlib Require Import Floats.SpecFloat.
From stdpp Require Import base option gmap strings.

Set Warnings "-register-all".
Local Open Scope string_scope.
Local Open Scope Z_scope.

(** ** Python values and builtins *)

Module Py.

(** Python [float] is IEEE 754 binary64; [spec_float] is the Standard
    Library's axiom-free model of it (no NaN payload). *)
Abbreviation float := spec_float.

Definition prec : Z := 53.
Definition emax : Z := 1024.

(** What [json.loads] produces: [None], [bool], [int], [float], [str],
    [list] and [dict] with string keys.  Python keeps integers and floats
    apart, and so does the embedding. *)
Inductive json :=
| JNull
| JBool (b : bool)
| JInt (z : Z)
| JFloat (f : float)
| JStr (s : string)
| JList (l : list json)
| JDict (d : gmap string json).

(** Exceptions that derive from [Exception].  [Failure] stands for any
    error of a collaborator (the trading client, the socket, an
    overridden handler). *)
Inductive exn :=
| AttributeError
| TypeError
| ValueError (msg : string)
| OverflowError
| JSONDecodeError
| ConnectionClosed
| Failure (msg : string).

Inductive result (A : Type) :=
| Ok (a : A)
| Raise (e : exn).
Arguments Ok {A} a.
Arguments Raise {A} e.

(** *** Strings

    A [str] is modelled by its bytes; letters, digits and whitespace are
    those of ASCII, which is what the identifiers and numerals of the
    protocol are written in. *)

Definition in_range (lo hi : N) (c : ascii) : bool :=
  (N.leb lo (N_of_ascii c) && N.leb (N_of_ascii c) hi)%bool.

Definition is_digit (c : ascii) : bool := in_range 48 57 c.

Definition upper_ascii (c : ascii) : ascii :=
  if in_range 97 122 c then ascii_of_N (N_of_ascii c - 32) else c.

Definition lower_ascii (c : ascii) : ascii :=
  if in_range 65 90 c then ascii_of_N (N_of_ascii c + 32) else c.

Fixpoint map_string (f : ascii -> ascii) (s : string) : string :=
  match s with
  | EmptyString => EmptyString
  | String c s' => String (f c) (map_string f s')
  end.

(** [str.upper] and [str.lower]. *)
Definition upper : string -> string := map_string upper_ascii.
Definition lower : string -> string := map_string lower_ascii.

Definition is_empty (s : string) : bool :=
  match s with EmptyString => true | String _ _ => false end.

(** [s.lstrip(chars)] and [s.rstrip(chars)], the set of characters given
    as a predicate. *)
Fixpoint lstrip (p : ascii -> bool) (s : string) : string :=
  match s with
  | EmptyString => EmptyString
  | String c s' => if p c then lstrip p s' else s
  end.

Fixpoint rstrip (p : ascii -> bool) (s : string) : string :=
  match s with
  | EmptyString => EmptyString
  | String c s' =>
      let r := rstrip p s' in
      if (p c && is_empty r)%bool then EmptyString else String c r
  end.

Definition is_slash (c : ascii) : bool := N.eqb (N_of_ascii c) 47.

(** *** [float(str)]

    The grammar of the builtin, as CPython implements it: surrounding
    whitespace is dropped, single underscores between digits are removed,
    then the text is a signed decimal with optional fraction and exponent,
    or one of inf, infinity, nan in any case.  The value of a decimal
    is its correctly rounded binary64. *)

Definition is_space (c : ascii) : bool :=
  (in_range 9 13 c || in_range 28 32 c)%bool.

Definition is_underscore (c : ascii) : bool := N.eqb (N_of_ascii c) 95.

Fixpoint has_underscore (s : string) : bool :=
  match s with
  | EmptyString => false
  | String c s' => (is_underscore c || has_underscore s')%bool
  end.

(** An underscore needs a digit before it and a digit after it. *)
Fixpoint drop_underscores (prev : ascii) (s : string) : option string :=
  match s with
  | EmptyString => if is_underscore prev then None else Some EmptyString
  | String c s' =>
      if is_underscore c then
        if is_digit prev then drop_underscores c s' else None
      else if (is_underscore prev && negb (is_digit c))%bool then None
      else option_map (String c) (drop_underscores c s')
  end.

Definition without_underscores (s : string) : option string :=
  if has_underscore s then drop_underscores zero s else Some s.

(** The longest prefix of digits, and what follows it. *)
Fixpoint span_digits (s : string) : string * string :=
  match s with
  | EmptyString => (EmptyString, EmptyString)
  | String c s' =>
      if is_digit c then
        let '(ds, rest) := span_digits s' in (String c ds, rest)
      else (EmptyString, s)
  end.

Fixpoint digits_value (acc : Z) (ds : string) : Z :=
  match ds with
  | EmptyString => acc
  | String c ds' => digits_value (10 * acc + (Z.of_N (N_of_ascii c) - 48)) ds'
  end.

Definition take_sign (s : string) : bool * string :=
  match s with
  | String "-" s' => (true, s')
  | String "+" s' => (false, s')
  | _ => (false, s)
  end.

(** The exponent part: empty, or e, an optional sign and digits. *)
Definition exponent (s : string) : option Z :=
  match s with
  | EmptyString => Some 0
  | String c s' =>
      if (Ascii.eqb c "e" || Ascii.eqb c "E")%bool then
        let '(neg, s'') := take_sign s' in
        let '(ds, rest) := span_digits s'' in
        if (is_empty ds || negb (is_empty rest))%bool then None
        else Some (if neg then - digits_value 0 ds else digits_value 0 ds)
      else None
  end.

(** The binary64 nearest to [m * 10 ^ e], ties to even; out of range it
    is an infinity, below the subnormals a zero. *)
Definition round_decimal (neg : bool) (m e : Z) : float :=
  match m with
  | Zpos p =>
      if 0 <=? e then binary_round prec emax neg (p * Z.to_pos (10 ^ e))%positive 0
      else SFdiv prec emax (S754_finite neg p 0)
                           (S754_finite false (Z.to_pos (10 ^ (- e))) 0)
  | _ => S754_zero neg
  end.

Definition length_Z (s : string) : Z := Z.of_nat (String.length s).

Definition decimal_of_string (s : string) : option float :=
  let '(neg, s1) := take_sign s in
  let '(ip, r1) := span_digits s1 in
  let '(fp, r2) :=
    match r1 with
    | String "." r => span_digits r
    | _ => (EmptyString, r1)
    end in
  if (is_empty ip && is_empty fp)%bool then None
  else match exponent r2 with
       | Some e => Some (round_decimal neg (digits_value 0 (ip ++ fp)) (e - length_Z fp))
       | None => None
       end.

Definition inf_or_nan_of_string (s : string) : option float :=
  let '(neg, s1) := take_sign s in
  let w := lower s1 in
  if (String.eqb w "inf" || String.eqb w "infinity")%bool then Some (S754_infinity neg)
  else if String.eqb w "nan" then Some S754_nan
  else None.

Definition float_of_string (s : string) : option float :=
  match without_underscores (rstrip is_space (lstrip is_space s)) with
  | None => None
  | Some t =>
      match decimal_of_string t with
      | Some f => Some f
      | None => inf_or_nan_of_string t
      end
  end.

(** Plain decimal numerals such as 45000 and 0.01: digits, at least one,
    then possibly a point and digits, at least one. *)
Fixpoint all_digits (s : string) : bool :=
  match s with
  | EmptyString => true
  | String c s' => (is_digit c && all_digits s')%bool
  end.

Fixpoint is_decimal_numeral_from (seen_digit : bool) (s : string) : bool :=
  match s with
  | EmptyString => seen_digit
  | String c s' =>
      if is_digit c then is_decimal_numeral_from true s'
      else if Ascii.eqb c "." then
        (seen_digit && negb (is_empty s') && all_digits s')%bool
      else false
  end.

Definition is_decimal_numeral : string -> bool := is_decimal_numeral_from false.

(** [float(int)]: the nearest binary64, [OverflowError] beyond the range. *)
Definition float_of_int (z : Z) : result float :=
  match binary_normalize prec emax z 0 false with
  | S754_infinity _ => Raise OverflowError
  | f => Ok f
  end.

(** The builtin [float]. *)
Definition float_ (v : json) : result float :=
  match v with
  | JFloat f => Ok f
  | JInt z => float_of_int z
  | JBool b => Ok (if b then SFone prec emax else S754_zero false)
  | JStr s =>
      match float_of_string s with
      | Some f => Ok f
      | None => Raise (ValueError "could not convert string to float")
      end
  | JNull | JList _ | JDict _ => Raise TypeError
  end.

(** *** Truthiness *)

(** [bool(f)] for a float: everything but the two zeros, NaN included. *)
Definition float_truthy (f : float) : bool :=
  match f with S754_zero _ => false | _ => true end.

Definition str_truthy (s : string) : bool := negb (is_empty s).

Definition truthy (v : json) : bool :=
  match v with
  | JNull => false
  | JBool b => b
  | JInt z => negb (z =? 0)
  | JFloat f => float_truthy f
  | JStr s => str_truthy s
  | JList l => match l with [] => false | _ => true end
  | JDict d => negb (bool_decide (d = ∅))
  end.

(** [0 < f] on floats. *)
Definition float_positive (f : float) : bool := SFltb (S754_zero false) f.

(** *** Attribute access *)

(** [obj.get(key, default)]: only a [dict] has the method. *)
Definition get (obj : json) (key : string) (dflt : json) : result json :=
  match obj with
  | JDict d => Ok (default dflt (d !! key))
  | _ => Raise AttributeError
  end.

(** [obj.upper()] and [obj.lower()]: only a [str] has the methods. *)
Definition upper_ (obj : json) : result string :=
  match obj with
  | JStr s => Ok (upper s)
  | _ => Raise AttributeError
  end.

Definition lower_ (obj : json) : result string :=
  match obj with
  | JStr s => Ok (lower s)
  | _ => Raise AttributeError
  end.

End Py.

Import Py.

(** ** The executor *)

Module Executor.

(** What the executor does to the outside world, in order: calls on the
    trading client, connection attempts and waits. *)
Inductive event :=
| IsAuthenticated
| ExecutePerpTrade (symbol : json) (size : float) (side : string) (reduce_only : json)
| SetStopLoss (symbol : json) (size trigger_price : float) (side : string)
| SetTakeProfit (symbol : json) (size trigger_price : float) (side : string)
| Connect (url authorization : string)
| Sleep (seconds : Z).

(** A computation runs after a history of events; it returns or raises,
    and yields the events it added itself.  What was done before a raise
    stays done. *)
Definition M (A : Type) : Type := list event -> result A * list event.

#[export] Instance M_ret : MRet M := fun A a _ => (Ok a, []).

#[export] Instance M_bind : MBind M := fun A B k m h =>
  match m h with
  | (Ok a, evs) => let '(r, evs') := k a (h ++ evs)%list in (r, (evs ++ evs')%list)
  | (Raise e, evs) => (Raise e, evs)
  end.

Definition raise {A} (e : exn) : M A := fun _ => (Raise e, []).

Definition lift {A} (r : result A) : M A := fun _ => (r, []).

(** [try: body except Exception as e: handler e]. *)
Definition try_except {A} (body : M A) (handler : exn -> M A) : M A := fun h =>
  match body h with
  | (Ok a, evs) => (Ok a, evs)
  | (Raise e, evs) =>
      let '(r, evs') := handler e (h ++ evs)%list in (r, (evs ++ evs')%list)
  end.

(** A call on a collaborator: recorded, and answered from what happened
    before it. *)
Definition perform {A} (ev : event) (answer : list event -> result A) : M A :=
  fun h => (answer h, [ev]).

Definition emit (ev : event) : M unit := fun _ => (Ok tt, [ev]).

(** The trading client ([HyperliquidClient], or the mock of the tests):
    each method may return or raise, possibly depending on what happened
    before. *)
Record HyperliquidClient := {
  is_authenticated : list event -> result bool;
  execute_perp_trade : json -> float -> string -> json -> list event -> result unit;
  set_stop_loss : json -> float -> float -> string -> list event -> result unit;
  set_take_profit : json -> float -> float -> string -> list event -> result unit;
}.

(** What an awaited operation of the connection loop comes back with;
    [Signal] is SIGINT or SIGTERM arriving while the loop waits. *)
Inductive completion :=
| ConnectReturns
| ConnectRaises (e : exn)
| RecvReturns (message : option json)
| RecvRaises (e : exn)
| SleepReturns
| Signal.

(** Where the coroutine [_connect] is waiting, or [Finished] once it has
    returned. *)
Inductive conn_state := Connecting | Receiving | Sleeping | Finished.

(** The fields of [self]; [hl_client] is [None] when there is no client,
    [connect_task] holds the coroutine that [start] hands to the event
    loop, which runs it on the environment and the network it finds. *)
Record FractradeExecutor := {
  hl_client : option HyperliquidClient;
  running : bool;
  shutdown_event : bool;
  connect_task : option (gmap string string -> list completion -> M conn_state);
}.

(** *** The handlers

    Statement by statement.  Calls to the logger change neither the
    control flow nor the client and are left out; what their arguments
    evaluate is kept, since a [get] or a client call there can raise too. *)

Section Handlers.

Variable self : FractradeExecutor.

(** The second [get position "symbol"] is the debug line that prints the
    raw symbol; the three reads of [metadata] are the trade summary; the
    [is_authenticated] of the last branch is the one in the message that
    says why nothing was executed. *)
Definition handle_hyperliquid_perp_trade (config : json) : M bool :=
  match hl_client self with
  | None => mret false
  | Some client =>
      try_except
        (position ← lift (get config "position" (JDict ∅));
         metadata ← lift (get config "metadata" (JDict ∅));
         _ ← lift (get position "symbol" JNull);
         symbol ← lift (get position "symbol" JNull);
         size_field ← lift (get position "size" (JInt 0));
         size ← lift (float_ size_field);
         side_field ← lift (get position "side" (JStr EmptyString));
         side ← lift (upper_ side_field);
         reduce_only ← lift (get position "reduce_only" (JBool false));
         server_execution ← lift (get metadata "server_execution" (JBool false));
         if negb (truthy symbol) then mret false
         else if negb (float_truthy size) then mret false
         else if negb (str_truthy side) then mret false
         else
           _ ← lift (get metadata "price" JNull);
           _ ← lift (get metadata "leverage" JNull);
           _ ← lift (get metadata "source_wallet" JNull);
           execute ← (if negb (truthy server_execution)
                      then perform IsAuthenticated (is_authenticated client)
                      else mret false);
           if execute : bool then
             try_except
               (_ ← perform (ExecutePerpTrade symbol size side reduce_only)
                            (execute_perp_trade client symbol size side reduce_only);
                mret true)
               (fun _ => mret false)
           else
             _ ← perform IsAuthenticated (is_authenticated client);
             mret false)
        (fun _ => mret false)
  end.

Definition handle_set_hyperliquid_perp_stop_loss (config : json) : M bool :=
  match hl_client self with
  | None => mret false
  | Some client =>
      try_except
        (position ← lift (get config "position" (JDict ∅));
         symbol ← lift (get position "symbol" JNull);
         size_field ← lift (get position "size" (JInt 0));
         size ← lift (float_ size_field);
         trigger_field ← lift (get position "trigger_price" (JInt 0));
         trigger_price ← lift (float_ trigger_field);
         side_field ← lift (get position "side" (JStr EmptyString));
         side ← lift (upper_ side_field);
         if (negb (truthy symbol) || negb (float_truthy size)
             || negb (float_truthy trigger_price) || negb (str_truthy side))%bool
         then mret false
         else
           _ ← perform (SetStopLoss symbol size trigger_price side)
                       (set_stop_loss client symbol size trigger_price side);
           mret true)
        (fun _ => mret false)
  end.

Definition handle_set_hyperliquid_perp_take_profit (config : json) : M bool :=
  match hl_client self with
  | None => mret false
  | Some client =>
      try_except
        (position ← lift (get config "position" (JDict ∅));
         symbol ← lift (get position "symbol" JNull);
         size_field ← lift (get position "size" (JInt 0));
         size ← lift (float_ size_field);
         trigger_field ← lift (get position "trigger_price" (JInt 0));
         trigger_price ← lift (float_ trigger_field);
         side_field ← lift (get position "side" (JStr EmptyString));
         side ← lift (upper_ side_field);
         if (negb (truthy symbol) || negb (float_truthy size)
             || negb (float_truthy trigger_price) || negb (str_truthy side))%bool
         then mret false
         else
           _ ← perform (SetTakeProfit symbol size trigger_price side)
                       (set_take_profit client symbol size trigger_price side);
           mret true)
        (fun _ => mret false)
  end.

End Handlers.

(** The three handler methods, which a subclass may override;
    [handle_action] reaches them through [self]. *)
Record Handlers := {
  trade_handler : json -> M bool;
  stop_loss_handler : json -> M bool;
  take_profit_handler : json -> M bool;
}.

(** The methods of [FractradeExecutor] itself. *)
Definition base_handlers (self : FractradeExecutor) : Handlers := {|
  trade_handler := handle_hyperliquid_perp_trade self;
  stop_loss_handler := handle_set_hyperliquid_perp_stop_loss self;
  take_profit_handler := handle_set_hyperliquid_perp_take_profit self;
|}.

Definition handle_action (methods : Handlers) (data : json) : M unit :=
  try_except
    (type_field ← lift (get data "type" (JStr EmptyString));
     message_type ← lift (upper_ type_field);
     if String.eqb message_type "ACTION" then
       action_data ← lift (get data "data" (JDict ∅));
       id_field ← lift (get action_data "action_id" (JStr EmptyString));
       action_id ← lift (lower_ id_field);
       config ← lift (get action_data "config" (JDict ∅));
       if String.eqb action_id "execute_hyperliquid_perp_trade" then
         _ ← trade_handler methods config; mret tt
       else if String.eqb action_id "set_hyperliquid_perp_stop_loss" then
         _ ← stop_loss_handler methods config; mret tt
       else if String.eqb action_id "set_hyperliquid_perp_take_profit" then
         _ ← take_profit_handler methods config; mret tt
       else mret tt
     else mret tt)
    (fun _ => mret tt).

(** *** The connection loop

    [_connect] is a coroutine: it runs until it has to wait, and goes on
    when what it waits for completes.  [loop_head] is the test of the
    outer [while self.running], [on_completion] one resumption. *)

Section Connection.

Variable methods : Handlers.
Variables full_url authorization : string.

Definition loop_head (running : bool) : M conn_state :=
  if running then _ ← emit (Connect full_url authorization); mret Connecting
  else mret Finished.

Definition on_completion (st : conn_state * bool) (c : completion)
  : M (conn_state * bool) :=
  let '(phase, running) := st in
  match c, phase with
  | Signal, _ => mret (phase, false)
  | ConnectRaises _, Connecting =>
      if running then _ ← emit (Sleep 5); mret (Sleeping, running)
      else mret (Finished, running)
  | ConnectReturns, Connecting =>
      mret (if running then Receiving else Finished, running)
  | RecvReturns message, Receiving =>
      _ ← try_except
            (match message with
             | Some data => handle_action methods data
             | None => raise JSONDecodeError
             end)
            (fun _ => mret tt);
      mret (if running then Receiving else Finished, running)
  | RecvRaises ConnectionClosed, Receiving =>
      _ ← emit (Sleep 5); mret (Sleeping, running)
  | RecvRaises _, Receiving =>
      if running then _ ← emit (Sleep 5); mret (Sleeping, running)
      else mret (Finished, running)
  | SleepReturns, Sleeping =>
      phase' ← loop_head running; mret (phase', running)
  | _, _ => mret st
  end.

Fixpoint connection_loop (script : list completion) (st : conn_state * bool)
  : M (conn_state * bool) :=
  match script with
  | [] => mret st
  | c :: script' => st' ← on_completion st c; connection_loop script' st'
  end.

End Connection.

(** [os.environ.get(name)] followed by [if not value]. *)
Definition unset (value : option string) : bool :=
  match value with
  | None => true
  | Some s => is_empty s
  end.

Definition _connect (methods : Handlers) (running : bool)
    (environ : gmap string string) (script : list completion) : M conn_state :=
  let ws_url := environ !! "FRAC_WS_URL" in
  let user_token := environ !! "FRAC_USER_TOKEN" in
  if unset ws_url then raise (ValueError "FRAC_WS_URL environment variable not set")
  else if unset user_token then
    raise (ValueError "FRAC_USER_TOKEN environment variable not set")
  else
    let full_url := rstrip is_slash (default EmptyString ws_url) ++ "/ws/executor/" in
    let authorization := "Token " ++ default EmptyString user_token in
    phase ← loop_head full_url authorization running;
    st ← connection_loop methods full_url authorization script (phase, running);
    mret (fst st).

(** [start]: set the flags, create the task, return; the task is not
    awaited. *)
Definition start (self : FractradeExecutor) : M FractradeExecutor :=
  mret {| hl_client := hl_client self;
          running := true;
          shutdown_event := false;
          connect_task := Some (_connect (base_handlers self) true) |}.

(** *** What the dispatcher reads from a message *)

(** The [type] of a message in upper case, as [handle_action] reads it. *)
Definition message_type (data : json) : result string :=
  match get data "type" (JStr EmptyString) with
  | Ok type_field => upper_ type_field
  | Raise e => Raise e
  end.

(** The [action_id] of a message in lower case, as [handle_action] reads
    it. *)
Definition action_id (data : json) : result string :=
  match get data "data" (JDict ∅) with
  | Ok action_data =>
      match get action_data "action_id" (JStr EmptyString) with
      | Ok id_field => lower_ id_field
      | Raise e => Raise e
      end
  | Raise e => Raise e
  end.


(** *** Reading a run

    [wp m h Q]: run after the history [h], the computation [m] ends with
    a result and a list of new events that satisfy [Q]. *)
Definition wp {A} (m : M A) (h : list event)
    (Q : result A -> list event -> Prop) : Prop :=
  Q (fst (m h)) (snd (m h)).

Definition succeeded {A} (r : result A) : bool :=
  match r with Ok _ => true | Raise _ => false end.

(** The value under [config[section][key]] when [config] is a dict and
    its section, [{}] when missing, is a dict that has the key; [None]
    is how a field is absent. *)
Definition section_field (section : string) (config : json) (key : string)
  : option json :=
  match config with
  | JDict cfg =>
      match default (JDict ∅) (cfg !! section) with
      | JDict d => d !! key
      | _ => None
      end
  | _ => None
  end.

Definition position_field := section_field "position".
Definition metadata_field := section_field "metadata".

(** Every way a run of [handle_hyperliquid_perp_trade] can go: the order
    is not placed, and the client was at most asked whether it is
    authenticated; or every check passed and the order was sent once. *)
Inductive trade_run (self : FractradeExecutor) (config : json) (h : list event)
  : bool -> list event -> Prop :=
| trade_not_executed n :
    trade_run self config h false (replicate n IsAuthenticated)
| trade_executed client position metadata symbol size_field size side_field
      side reduce_only server_execution :
    hl_client self = Some client ->
    get config "position" (JDict ∅) = Ok position ->
    get config "metadata" (JDict ∅) = Ok metadata ->
    get position "symbol" JNull = Ok symbol ->
    get position "size" (JInt 0) = Ok size_field ->
    float_ size_field = Ok size ->
    get position "side" (JStr EmptyString) = Ok side_field ->
    upper_ side_field = Ok side ->
    get position "reduce_only" (JBool false) = Ok reduce_only ->
    get metadata "server_execution" (JBool false) = Ok server_execution ->
    truthy symbol = true ->
    float_truthy size = true ->
    str_truthy side = true ->
    truthy server_execution = false ->
    is_authenticated client h = Ok true ->
    trade_run self config h
      (succeeded (execute_perp_trade client symbol size side reduce_only
                    (h ++ [IsAuthenticated])%list))
      [IsAuthenticated; ExecutePerpTrade symbol size side reduce_only].

(** The same for the stop-loss and take-profit handlers, which differ in
    the client method [place] and the event [placed] it leaves. *)
Inductive trigger_run
    (placed : json -> float -> float -> string -> event)
    (place : HyperliquidClient -> json -> float -> float -> string ->
             list event -> result unit)
    (self : FractradeExecutor) (config : json) (h : list event)
  : bool -> list event -> Prop :=
| trigger_refused : trigger_run placed place self config h false []
| trigger_placed client position symbol size_field size trigger_field
      trigger_price side_field side :
    hl_client self = Some client ->
    get config "position" (JDict ∅) = Ok position ->
    get position "symbol" JNull = Ok symbol ->
    get position "size" (JInt 0) = Ok size_field ->
    float_ size_field = Ok size ->
    get position "trigger_price" (JInt 0) = Ok trigger_field ->
    float_ trigger_field = Ok trigger_price ->
    get position "side" (JStr EmptyString) = Ok side_field ->
    upper_ side_field = Ok side ->
    truthy symbol = true ->
    float_truthy size = true ->
    float_truthy trigger_price = true ->
    str_truthy side = true ->
    trigger_run placed place self config h
      (succeeded (place client symbol size trigger_price side h))
      [placed symbol size trigger_price side].

End Executor.

Import Executor.

(** ** Sample inputs

    The client and the three messages of [tests/test_integration.py],
    and variations of them. *)

Module Samples.

(** [MockHyperliquidClient]: authenticated, every call returns. *)
Definition mock_client : HyperliquidClient := {|
  is_authenticated := fun _ => Ok true;
  execute_perp_trade := fun _ _ _ _ _ => Ok tt;
  set_stop_loss := fun _ _ _ _ _ => Ok tt;
  set_take_profit := fun _ _ _ _ _ => Ok tt;
|}.

(** A client without credentials; its methods still answer. *)
Definition unauthenticated_client : HyperliquidClient := {|
  is_authenticated := fun _ => Ok false;
  execute_perp_trade := fun _ _ _ _ _ => Ok tt;
  set_stop_loss := fun _ _ _ _ _ => Ok tt;
  set_take_profit := fun _ _ _ _ _ => Ok tt;
|}.

(** Authenticated, but every order raises. *)
Definition rejecting_client : HyperliquidClient := {|
  is_authenticated := fun _ => Ok true;
  execute_perp_trade := fun _ _ _ _ _ => Raise (Failure "order rejected");
  set_stop_loss := fun _ _ _ _ _ => Raise (Failure "order rejected");
  set_take_profit := fun _ _ _ _ _ => Raise (Failure "order rejected");
|}.

Definition executor_with (client : HyperliquidClient) : FractradeExecutor := {|
  hl_client := Some client;
  running := false;
  shutdown_event := false;
  connect_task := None;
|}.

Definition test_executor : FractradeExecutor := executor_with mock_client.

Definition btc_long : gmap string json :=
  {[ "symbol" := JStr "BTC"; "size" := JStr "0.01"; "side" := JStr "buy" ]}.

Definition btc_stop (trigger : string) : gmap string json :=
  {[ "symbol" := JStr "BTC"; "size" := JStr "0.01"; "side" := JStr "SELL";
     "trigger_price" := JStr trigger; "reduce_only" := JBool true ]}.

Definition trade_config : json := JDict {[ "position" := JDict btc_long ]}.

Definition served_trade_config : json :=
  JDict {[ "position" := JDict btc_long;
           "metadata" := JDict {[ "server_execution" := JBool true ]} ]}.

Definition stop_loss_config : json :=
  JDict {[ "position" := JDict (btc_stop "45000");
           "metadata" := JDict {[ "server_execution" := JBool true ]} ]}.

Definition take_profit_config : json :=
  JDict {[ "position" := JDict (btc_stop "55000") ]}.

(** The position of [trade_config] with one field replaced. *)
Definition trade_with (key : string) (v : json) : json :=
  JDict {[ "position" := JDict (<[key := v]> btc_long) ]}.

Definition action (type_ id : string) (config : json) : json :=
  JDict {[ "type" := JStr type_;
           "data" := JDict {[ "action_id" := JStr id; "config" := config ]} ]}.

Definition settings : gmap string string :=
  {[ "FRAC_WS_URL" := "ws://localhost:8000/"; "FRAC_USER_TOKEN" := "test-token-123" ]}.

(** 0.01, 45000.0 and 55000.0 as binary64. *)
Definition f_0_01 : float := S754_finite false 5764607523034235 (-59).
Definition f_45000 : float := S754_finite false 6184752906240000 (-37).
Definition f_55000 : float := S754_finite false 7559142440960000 (-37).
Definition f_minus_1 : float := S754_finite true 4503599627370496 (-52).

End Samples.

Import Samples.

(** ** Reading a trace *)

Module Trace.

(** The calls that place something on the exchange. *)
Definition is_order (e : event) : bool :=
  match e with
  | ExecutePerpTrade _ _ _ _ | SetStopLoss _ _ _ _ | SetTakeProfit _ _ _ _ => true
  | _ => false
  end.

Definition is_connect (e : event) : bool :=
  match e with Connect _ _ => true | _ => false end.

Definition is_sleep (e : event) : bool :=
  match e with Sleep _ => true | _ => false end.

Fixpoint count (p : event -> bool) (evs : list event) : nat :=
  match evs with
  | [] => 0%nat
  | e :: evs' => ((if p e then 1 else 0) + count p evs')%nat
  end.

(** The config that [handle_action] hands to a handler:
    the [config] of the [data] of the message, or an empty dict. *)
Definition action_config (data : json) : json :=
  match get data "data" (JDict ∅) with
  | Ok action_data =>
      match get action_data "config" (JDict ∅) with
      | Ok config => config
      | Raise _ => JDict ∅
      end
  | Raise _ => JDict ∅
  end.

(** What the connection loop itself may leave in a trace for a given
    endpoint and header; everything else comes from the handlers. *)
Definition loop_event_ok (full_url authorization : string) (e : event) : Prop :=
  match e with
  | Connect url header => url = full_url /\ header = authorization
  | Sleep seconds => seconds = 5
  | _ => True
  end.

(** What the handlers of [FractradeExecutor] leave in a trace: at most
    one order, and nothing that belongs to the connection loop. *)
Definition handler_trace (evs : list event) : Prop :=
  (count is_order evs <= 1)%nat
  /\ count is_connect evs = 0%nat /\ count is_sleep evs = 0%nat.

(** Two measures of a state of the connection loop: whether the wait
    before the next attempt has already been started, and how many more
    frames can be handled once [running] is false. *)
Definition waited (phase : conn_state) : nat :=
  match phase with Sleeping => 1%nat | _ => 0%nat end.

Definition frames_left (phase : conn_state) : nat :=
  match phase with Receiving => 1%nat | _ => 0%nat end.

End Trace.

Import Trace.

(** ** Construction and teardown *)

Module Lifecycle.

(** The two constructors of [fractrade_hl_simple] that
    [_init_hyperliquid_client] uses: [HyperliquidAccount.from_key] and
    [HyperliquidClient], with an account or without. *)
Record HyperliquidLib (Account : Type) := {
  from_key : string -> string -> result Account;
  new_client : option Account -> result HyperliquidClient;
}.
Arguments from_key {Account} _ _ _.
Arguments new_client {Account} _ _.

(** The constructor calls made, in order. *)
Inductive lib_call :=
| FromKey (private_key public_address : string)
| NewClient (with_account : bool).

(** [_init_hyperliquid_client]: the client that ends up in
    [self.hl_client], or the exception that leaves the method. *)
Definition _init_hyperliquid_client {Account} (lib : HyperliquidLib Account)
    (environ : gmap string string) : result HyperliquidClient * list lib_call :=
  let private_key := environ !! "HYPERLIQUID_PRIVATE_KEY" in
  let public_address := environ !! "HYPERLIQUID_PUBLIC_ADDRESS" in
  let fallback (calls : list lib_call) :=
    (new_client lib None, (calls ++ [NewClient false])%list) in
  if (negb (unset private_key) && negb (unset public_address))%bool then
    let key := default EmptyString private_key in
    let address := default EmptyString public_address in
    match from_key lib key address with
    | Ok account =>
        match new_client lib (Some account) with
        | Ok client => (Ok client, [FromKey key address; NewClient true])
        | Raise _ => fallback [FromKey key address; NewClient true]
        end
    | Raise _ => fallback [FromKey key address]
    end
  else
    match new_client lib None with
    | Ok client => (Ok client, [NewClient false])
    | Raise _ => fallback [NewClient false]
    end.

(** What [await self._connect_task] ends with after [cancel()]:
    [CancelledError], a normal return, or another exception. *)
Inductive awaited := Cancelled | Returned | Failed (e : exn).

(** How the resources answer when [stop] lets go of them. *)
Record Teardown := {
  await_task : awaited;
  websocket_close : result unit;
  client_close : result unit;
}.

Inductive teardown_event := CancelTask | CloseSocket | CloseClient.

(** [self] at the time of [stop]: the executor, whether [self.websocket]
    is an open connection rather than [None], and whether the task, if
    there is one, is done. *)
Record Live := {
  executor : FractradeExecutor;
  websocket : bool;
  task_done : bool;
}.

Definition set_flags (running' shutdown' : bool) (self : FractradeExecutor)
  : FractradeExecutor :=
  {| hl_client := hl_client self;
     running := running';
     shutdown_event := shutdown';
     connect_task := connect_task self |}.

Definition release_client (self : FractradeExecutor) : FractradeExecutor :=
  {| hl_client := None;
     running := running self;
     shutdown_event := shutdown_event self;
     connect_task := connect_task self |}.

(** [hasattr(self, '_connect_task') and not self._connect_task.done()]. *)
Definition task_pending (st : Live) : bool :=
  match connect_task (executor st) with
  | Some _ => negb (task_done st)
  | None => false
  end.

(** The last step of [stop]: the client. *)
Definition stop_client (world : Teardown) (st : Live)
  : result unit * Live * list teardown_event :=
  match hl_client (executor st) with
  | Some _ =>
      match client_close world with
      | Ok _ =>
          (Ok tt,
           {| executor := release_client (executor st);
              websocket := websocket st;
              task_done := task_done st |},
           [CloseClient])
      | Raise e => (Raise e, st, [CloseClient])
      end
  | None => (Ok tt, st, [])
  end.

(** The step before: the socket, then the client. *)
Definition stop_socket (world : Teardown) (st : Live)
  : result unit * Live * list teardown_event :=
  if websocket st then
    match websocket_close world with
    | Ok _ =>
        let '(r, st', evs) :=
          stop_client world {| executor := executor st;
                               websocket := false;
                               task_done := task_done st |} in
        (r, st', CloseSocket :: evs)
    | Raise e => (Raise e, st, [CloseSocket])
    end
  else stop_client world st.

(** [stop]: clear [running], set the shutdown event, cancel the task if
    it is still pending, close the socket if there is one, close the
    client if there is one.  An exception leaves at once; what was done
    stays done. *)
Definition stop (world : Teardown) (st : Live)
  : result unit * Live * list teardown_event :=
  let st1 := {| executor := set_flags false true (executor st);
                websocket := websocket st;
                task_done := task_done st |} in
  if task_pending st1 then
    let st2 := {| executor := executor st1;
                  websocket := websocket st1;
                  task_done := true |} in
    match await_task world with
    | Failed e => (Raise e, st2, [CancelTask])
    | Cancelled | Returned =>
        let '(r, st', evs) := stop_socket world st2 in
        (r, st', CancelTask :: evs)
    end
  else stop_socket world st1.

(** Sample collaborators. *)
Definition sample_lib : HyperliquidLib string := {|
  from_key := fun key address =>
    if String.eqb key "test-private-key" then Ok address
    else Raise (ValueError "bad key");
  new_client := fun account =>
    match account with
    | Some _ => Ok mock_client
    | None => Ok unauthenticated_client
    end;
|}.

Definition credentials : gmap string string :=
  {[ "HYPERLIQUID_PRIVATE_KEY" := "test-private-key";
     "HYPERLIQUID_PUBLIC_ADDRESS" := "test-public-address" ]}.

(** [trade_config] with fields that no handler knows. *)
Definition annotated_trade_config : json :=
  JDict {[ "position" := JDict btc_long;
           "comment" := JStr "rebalance";
           "position_id" := JInt 42 ]}.

Definition calm : Teardown :=
  {| await_task := Cancelled; websocket_close := Ok tt; client_close := Ok tt |}.

Definition broken_socket : Teardown :=
  {| await_task := Cancelled;
     websocket_close := Raise (Failure "socket already gone");
     client_close := Ok tt |}.

(** A started executor with an open connection. *)
Definition connected : Live :=
  {| executor :=
       {| hl_client := Some mock_client;
          running := true;
          shutdown_event := false;
          connect_task := Some (_connect (base_handlers test_executor) true) |};
     websocket := true;
     task_done := false |}.

End Lifecycle.

Import Lifecycle.

Example float_of_string_0_01 :
  float_of_string "0.01" = Some (S754_finite false 5764607523034235 (-59)).
Proof. vm_compute. reflexivity. Qed.

Example float_of_string_45000 :
  float_of_string "45000" = Some (S754_finite false 6184752906240000 (-37)).
Proof. vm_compute. reflexivity. Qed.

Example float_of_string_55000 : float_of_string "55000" = Some f_55000.
Proof. vm_compute. reflexivity. Qed.

Example float_of_string_forms :
  map float_of_string [" 1_000.5e1 "; "-0"; "1e-400"; "1e400"; "-Infinity"; "nan"]
  = [Some (S754_finite false 5500306917949440 (-39)); Some (S754_zero true);
     Some (S754_zero false); Some (S754_infinity false);
     Some (S754_infinity true); Some S754_nan].
Proof. vm_compute. reflexivity. Qed.

Example float_of_string_rejects :
  map float_of_string [EmptyString; "."; "1e"; "1__0"; "_1"; "1_"; "0x10"; "1 2"; "BTC"]
  = [None; None; None; None; None; None; None; None; None].
Proof. vm_compute. reflexivity. Qed.

Example float_of_int_range :
  map float_of_int [0; -1; 2 ^ 1024]
  = [Ok (S754_zero false); Ok f_minus_1; Raise OverflowError].
Proof. vm_compute. reflexivity. Qed.

Example truthy_samples :
  map truthy [JNull; JBool false; JInt 0; JFloat (S754_zero true); JStr EmptyString;
              JList []; JDict ∅; JFloat S754_nan; JStr "0"; JInt (-1);
              JDict {[ "a" := JNull ]}]
  = [false; false; false; false; false; false; false; true; true; true; true].
Proof. vm_compute. reflexivity. Qed.

(** Configs of the wrong shape end in the handler's [except]. *)
Example malformed_configs_refused :
  map (fun config => handle_hyperliquid_perp_trade test_executor config [])
      [JList []; JDict {[ "position" := JNull ]};
       trade_with "size" JNull; trade_with "size" (JStr "a lot");
       trade_with "side" (JInt 1); trade_with "symbol" (JStr EmptyString);
       JDict {[ "position" := JDict btc_long; "metadata" := JNull ]}]
  = [(Ok false, []); (Ok false, []); (Ok false, []); (Ok false, []);
     (Ok false, []); (Ok false, []); (Ok false, [])].
Proof. vm_compute. reflexivity. Qed.

Example is_decimal_numeral_samples :
  map is_decimal_numeral ["0.01"; "45000"; "0"; EmptyString; "."; "1."; ".5"; "1.2.3"; "-1"; "1e5"]
  = [true; true; true; false; false; false; false; false; false; false].
Proof. vm_compute. reflexivity. Qed.

(** ** The monad's rules *)

Section Rules.

Context {A B : Type}.
Implicit Types (h : list event) (Q : result B -> list event -> Prop).

Lemma wp_ret (b : B) h Q : Q (Ok b) [] -> wp (mret b) h Q.
Proof. intros HQ. exact HQ. Qed.

Lemma wp_lift_bind (r : result A) (k : A -> M B) h Q :
  match r with
  | Ok a => wp (k a) h Q
  | Raise e => Q (Raise e) []
  end ->
  wp (lift r ≫= k) h Q.
Proof.
  unfold wp, mbind, M_bind, lift. destruct r as [a|e]; [|tauto].
  rewrite app_nil_r. destruct (k a h); tauto.
Qed.

Lemma wp_ret_bind (a : A) (k : A -> M B) h Q :
  wp (k a) h Q -> wp (mret a ≫= k) h Q.
Proof.
  unfold wp, mbind, M_bind, mret, M_ret.
  rewrite app_nil_r. destruct (k a h); tauto.
Qed.

Lemma wp_perform_bind ev (answer : list event -> result A) (k : A -> M B) h Q :
  match answer h with
  | Ok a => wp (k a) (h ++ [ev])%list (fun r evs => Q r (ev :: evs))
  | Raise e => Q (Raise e) [ev]
  end ->
  wp (perform ev answer ≫= k) h Q.
Proof.
  unfold wp, mbind, M_bind, perform. destruct (answer h) as [a|e]; [|tauto].
  destruct (k a _); tauto.
Qed.

Lemma wp_try_except (body : M B) (handler : exn -> M B) h Q :
  wp body h (fun r evs =>
               match r with
               | Ok b => Q (Ok b) evs
               | Raise e =>
                   wp (handler e) (h ++ evs)%list
                      (fun r' evs' => Q r' (evs ++ evs')%list)
               end) ->
  wp (try_except body handler) h Q.
Proof.
  unfold wp, try_except. destruct (body h) as [[b|e] evs]; simpl; [tauto|].
  destruct (handler e _); tauto.
Qed.

Lemma wp_mono (m : M B) h Q (Q' : result B -> list event -> Prop) :
  (forall r evs, Q r evs -> Q' r evs) -> wp m h Q -> wp m h Q'.
Proof. unfold wp. auto. Qed.

End Rules.

(** A body under [except Exception: return x] always returns. *)
Lemma wp_try_return {B} (body : M B) (x : B) h (P : B -> list event -> Prop) :
  wp body h (fun r evs => match r with Ok b => P b evs | Raise _ => P x evs end) ->
  wp (try_except body (fun _ => mret x)) h
     (fun r evs => exists b, r = Ok b /\ P b evs).
Proof.
  intros Hb. apply wp_try_except. revert Hb. apply wp_mono.
  intros [b|e] evs HP; [eauto|].
  apply wp_ret. rewrite app_nil_r. eauto.
Qed.

(** ** The runs of the handlers *)

(** One [x ← lift r; ...]: go on with the value, named [x], or leave to
    [fallback] with the exception. *)
Ltac lift_step x H fallback :=
  apply wp_lift_bind;
  lazymatch goal with
  | |- match ?r with _ => _ end =>
      destruct r as [x|?] eqn:H; [| solve [fallback]]
  end.

Lemma handle_hyperliquid_perp_trade_run self config h :
  wp (handle_hyperliquid_perp_trade self config) h
     (fun r evs => exists b, r = Ok b /\ trade_run self config h b evs).
Proof.
  pose proof (trade_not_executed self config h 0) as Hnone.
  pose proof (trade_not_executed self config h 1) as Hone.
  pose proof (trade_not_executed self config h 2) as Htwo.
  simpl in Hnone, Hone, Htwo.
  unfold handle_hyperliquid_perp_trade.
  destruct (hl_client self) as [client|] eqn:Hclient.
  2:{ apply wp_ret. eauto. }
  apply wp_try_return.
  lift_step position Hposition ltac:(exact Hnone).
  lift_step metadata Hmetadata ltac:(exact Hnone).
  lift_step symbol Hsymbol ltac:(exact Hnone).
  apply wp_lift_bind; cbv beta iota.
  lift_step size_field Hsize_field ltac:(exact Hnone).
  lift_step sz Hsize ltac:(exact Hnone).
  lift_step side_field Hside_field ltac:(exact Hnone).
  lift_step side Hside ltac:(exact Hnone).
  lift_step reduce_only Hreduce ltac:(exact Hnone).
  lift_step server_execution Hserver ltac:(exact Hnone).
  destruct (truthy symbol) eqn:Hsymbol_ok; simpl; [|apply wp_ret; exact Hnone].
  destruct (float_truthy sz) eqn:Hsize_ok; simpl; [|apply wp_ret; exact Hnone].
  destruct (str_truthy side) eqn:Hside_ok; simpl; [|apply wp_ret; exact Hnone].
  lift_step price Hprice ltac:(exact Hnone).
  lift_step leverage Hleverage ltac:(exact Hnone).
  lift_step source_wallet Hsource ltac:(exact Hnone).
  destruct (truthy server_execution) eqn:Hgate; simpl.
  - (* the server executes: only the log line asks the client *)
    apply wp_ret_bind, wp_perform_bind.
    destruct (is_authenticated client h); [apply wp_ret|]; exact Hone.
  - apply wp_perform_bind.
    destruct (is_authenticated client h) as [authenticated|] eqn:Hauth;
      [destruct authenticated|exact Hone].
    + assert (Hrun : trade_run self config h
                (succeeded (execute_perp_trade client symbol sz side reduce_only
                              (h ++ [IsAuthenticated])%list))
                [IsAuthenticated; ExecutePerpTrade symbol sz side reduce_only])
        by (eapply trade_executed; eauto).
      apply wp_try_except, wp_perform_bind.
      destruct (execute_perp_trade client _ _ _ _ _); apply wp_ret; exact Hrun.
    + apply wp_perform_bind.
      destruct (is_authenticated client (h ++ _)%list); [apply wp_ret|]; exact Htwo.
Qed.

(** The stop-loss and take-profit handlers are the same code around two
    client methods; one script covers both. *)
Ltac trigger_run_script placed place self config h :=
  pose proof (trigger_refused placed place self config h) as Hnone;
  destruct (hl_client self) as [client|] eqn:Hclient;
  [| apply wp_ret; eauto];
  apply wp_try_return;
  lift_step ident:(position) ident:(Hposition) ltac:(exact Hnone);
  lift_step ident:(symbol) ident:(Hsymbol) ltac:(exact Hnone);
  lift_step ident:(size_field) ident:(Hsize_field) ltac:(exact Hnone);
  lift_step ident:(sz) ident:(Hsize) ltac:(exact Hnone);
  lift_step ident:(trigger_field) ident:(Htrigger_field) ltac:(exact Hnone);
  lift_step ident:(trigger_price) ident:(Htrigger) ltac:(exact Hnone);
  lift_step ident:(side_field) ident:(Hside_field) ltac:(exact Hnone);
  lift_step ident:(side) ident:(Hside) ltac:(exact Hnone);
  lazymatch goal with
  | |- wp (if ?invalid then _ else _) _ _ =>
      destruct invalid eqn:Hvalid; [apply wp_ret; exact Hnone|];
      repeat (apply orb_false_elim in Hvalid;
              let H := fresh "Hvalid" in destruct Hvalid as [Hvalid H]);
      repeat lazymatch goal with
             | H : negb _ = false |- _ => apply negb_false_iff in H
             end
  end;
  apply wp_perform_bind;
  lazymatch goal with
  | |- match ?call with _ => _ end =>
      assert (Hrun : trigger_run placed place self config h (succeeded call) [_])
        by (eapply trigger_placed; eauto);
      destruct call; [apply wp_ret|]; exact Hrun
  end.

Lemma handle_set_hyperliquid_perp_stop_loss_run self config h :
  wp (handle_set_hyperliquid_perp_stop_loss self config) h
     (fun r evs => exists b,
          r = Ok b /\ trigger_run SetStopLoss set_stop_loss self config h b evs).
Proof.
  unfold handle_set_hyperliquid_perp_stop_loss.
  trigger_run_script SetStopLoss set_stop_loss self config h.
Qed.

Lemma handle_set_hyperliquid_perp_take_profit_run self config h :
  wp (handle_set_hyperliquid_perp_take_profit self config) h
     (fun r evs => exists b,
          r = Ok b /\ trigger_run SetTakeProfit set_take_profit self config h b evs).
Proof.
  unfold handle_set_hyperliquid_perp_take_profit.
  trigger_run_script SetTakeProfit set_take_profit self config h.
Qed.

(** ** Fields of a config, as the handlers read them *)

Lemma section_field_get section config key v obj dflt :
  section_field section config key = Some v ->
  get config section (JDict ∅) = Ok obj ->
  get obj key dflt = Ok v.
Proof.
  unfold section_field. destruct config as [| | | | | |cfg]; try discriminate.
  simpl. intros Hv [= <-].
  destruct (default (JDict ∅) (cfg !! section)); try discriminate.
  simpl. now rewrite Hv.
Qed.

Lemma section_field_absent section config key obj dflt v :
  section_field section config key = None ->
  get config section (JDict ∅) = Ok obj ->
  get obj key dflt = Ok v ->
  v = dflt.
Proof.
  unfold section_field. destruct config as [| | | | | |cfg]; try discriminate.
  simpl. intros Hv [= <-].
  destruct (default (JDict ∅) (cfg !! section)); try discriminate.
  simpl. rewrite Hv. now intros [= <-].
Qed.

(** A run of the trade handler, taken apart. *)
Lemma trade_run_of self config h :
  exists b evs,
    handle_hyperliquid_perp_trade self config h = (Ok b, evs)
    /\ trade_run self config h b evs.
Proof.
  pose proof (handle_hyperliquid_perp_trade_run self config h) as Hrun.
  unfold wp in Hrun.
  destruct (handle_hyperliquid_perp_trade self config h) as [r evs].
  simpl in Hrun. destruct Hrun as (b & -> & Hrun). eauto.
Qed.

Lemma stop_loss_run_of self config h :
  exists b evs,
    handle_set_hyperliquid_perp_stop_loss self config h = (Ok b, evs)
    /\ trigger_run SetStopLoss set_stop_loss self config h b evs.
Proof.
  pose proof (handle_set_hyperliquid_perp_stop_loss_run self config h) as Hrun.
  unfold wp in Hrun.
  destruct (handle_set_hyperliquid_perp_stop_loss self config h) as [r evs].
  simpl in Hrun. destruct Hrun as (b & -> & Hrun). eauto.
Qed.

Lemma take_profit_run_of self config h :
  exists b evs,
    handle_set_hyperliquid_perp_take_profit self config h = (Ok b, evs)
    /\ trigger_run SetTakeProfit set_take_profit self config h b evs.
Proof.
  pose proof (handle_set_hyperliquid_perp_take_profit_run self config h) as Hrun.
  unfold wp in Hrun.
  destruct (handle_set_hyperliquid_perp_take_profit self config h) as [r evs].
  simpl in Hrun. destruct Hrun as (b & -> & Hrun). eauto.
Qed.

Lemma no_trade_in_replicate n symbol size side reduce_only :
  ExecutePerpTrade symbol size side reduce_only ∉ replicate n IsAuthenticated.
Proof. intros Hin. apply elem_of_replicate in Hin as [? _]. discriminate. Qed.

(** ** Properties of the dispatcher and its handlers *)

(** C1. A trade config whose metadata carries a true [server_execution]
    never reaches the client's [execute_perp_trade], whatever the other
    fields are, and the handler returns [False]. *)
Theorem server_execution_never_reaches_adapter
    (self : FractradeExecutor) (config flag : json) (h : list event) :
  metadata_field config "server_execution" = Some flag ->
  truthy flag = true ->
  exists evs,
    handle_hyperliquid_perp_trade self config h = (Ok false, evs)
    /\ forall symbol size side reduce_only,
         ExecutePerpTrade symbol size side reduce_only ∉ evs.
Proof.
  intros Hflag Htrue.
  destruct (trade_run_of self config h) as (b & evs & Heq & Hrun).
  destruct Hrun as [n|client position metadata symbol size_field sz side_field
                      side reduce_only server_execution
                      _ _ Hmetadata _ _ _ _ _ _ Hserver _ _ _ Hgate _].
  - exists (replicate n IsAuthenticated). split; [exact Heq|].
    intros. apply no_trade_in_replicate.
  - pose proof (section_field_get _ _ _ _ _ (JBool false) Hflag Hmetadata) as Hget.
    rewrite Hget in Hserver. injection Hserver as <-. congruence.
Qed.

Lemma server_execution_never_reaches_adapter_witness :
  exists evs,
    handle_hyperliquid_perp_trade test_executor served_trade_config [] = (Ok false, evs)
    /\ forall symbol size side reduce_only,
         ExecutePerpTrade symbol size side reduce_only ∉ evs.
Proof.
  apply (server_execution_never_reaches_adapter
           test_executor served_trade_config (JBool true) []).
  - vm_compute. reflexivity.
  - reflexivity.
Defined.

(** Running forward when the hypotheses say what each step yields:
    [known] uses them, [forward] takes one [x ← lift r; ...]. *)
Ltac known :=
  repeat match goal with
         | H : ?lhs = _ |- context [?lhs] => rewrite H
         end.

Ltac forward := apply wp_lift_bind; simpl; known; simpl.

(** A computation whose result and events are known. *)
Lemma wp_eq {A} (m : M A) h r evs :
  wp m h (fun r' evs' => r' = r /\ evs' = evs) -> m h = (r, evs).
Proof. unfold wp. destruct (m h). simpl. now intros [-> ->]. Qed.




(** C4. A trade config without symbol, without size or with a size that
    is zero, or without side is refused: the handler returns [False], it
    does not raise, and [execute_perp_trade] is not called. *)
Theorem invalid_trade_refused
    (self : FractradeExecutor) (config : json) (h : list event) :
  position_field config "symbol" = None
  \/ position_field config "size" = None
  \/ (exists v zero, position_field config "size" = Some v
                     /\ float_ v = Ok zero /\ float_truthy zero = false)
  \/ position_field config "side" = None ->
  exists evs,
    handle_hyperliquid_perp_trade self config h = (Ok false, evs)
    /\ forall symbol size side reduce_only,
         ExecutePerpTrade symbol size side reduce_only ∉ evs.
Proof.
  intros Hinvalid.
  destruct (trade_run_of self config h) as (b & evs & Heq & Hrun).
  destruct Hrun as [n|client position metadata symbol size_field sz side_field
                      side reduce_only server_execution
                      _ Hposition _ Hsymbol Hsize_field Hsize Hside_field Hside
                      _ _ Hsymbol_ok Hsize_ok Hside_ok _ _].
  { exists (replicate n IsAuthenticated). split; [exact Heq|].
    intros. apply no_trade_in_replicate. }
  exfalso.
  destruct Hinvalid as [Habsent|[Habsent|[(v & zero & Hv & Hzero & Hfalse)|Habsent]]].
  - rewrite (section_field_absent _ _ _ _ _ _ Habsent Hposition Hsymbol) in Hsymbol_ok.
    discriminate.
  - rewrite (section_field_absent _ _ _ _ _ _ Habsent Hposition Hsize_field) in Hsize.
    injection Hsize as <-. discriminate.
  - rewrite (section_field_get _ _ _ _ _ _ Hv Hposition) in Hsize_field.
    injection Hsize_field as <-. congruence.
  - rewrite (section_field_absent _ _ _ _ _ _ Habsent Hposition Hside_field) in Hside.
    injection Hside as <-. discriminate.
Qed.

Lemma invalid_trade_refused_witness :
  exists evs,
    handle_hyperliquid_perp_trade test_executor (trade_with "size" (JStr "0.0")) []
    = (Ok false, evs)
    /\ forall symbol size side reduce_only,
         ExecutePerpTrade symbol size side reduce_only ∉ evs.
Proof.
  apply (invalid_trade_refused test_executor (trade_with "size" (JStr "0.0")) []).
  right. right. left. exists (JStr "0.0"), (S754_zero false).
  repeat split; vm_compute; reflexivity.
Defined.

(** C5. A stop-loss or take-profit config that lacks one of symbol, size,
    trigger_price and side is refused: the handler returns [False] and
    the client is not called at all. *)
Theorem incomplete_trigger_refused
    (self : FractradeExecutor) (config : json) (h : list event) :
  position_field config "symbol" = None
  \/ position_field config "size" = None
  \/ position_field config "trigger_price" = None
  \/ position_field config "side" = None ->
  handle_set_hyperliquid_perp_stop_loss self config h = (Ok false, [])
  /\ handle_set_hyperliquid_perp_take_profit self config h = (Ok false, []).
Proof.
  intros Hmissing.
  assert (Hnone : forall placed place b evs,
             trigger_run placed place self config h b evs -> b = false /\ evs = []).
  { intros placed place b evs
           [|client position symbol size_field sz trigger_field trigger_price
             side_field side _ Hposition Hsymbol Hsize_field Hsize Htrigger_field
             Htrigger Hside_field Hside Hsymbol_ok Hsize_ok Htrigger_ok Hside_ok];
      [tauto|exfalso].
    destruct Hmissing as [Habsent|[Habsent|[Habsent|Habsent]]].
    - rewrite (section_field_absent _ _ _ _ _ _ Habsent Hposition Hsymbol) in Hsymbol_ok.
      discriminate.
    - rewrite (section_field_absent _ _ _ _ _ _ Habsent Hposition Hsize_field) in Hsize.
      injection Hsize as <-. discriminate.
    - rewrite (section_field_absent _ _ _ _ _ _ Habsent Hposition Htrigger_field)
        in Htrigger.
      injection Htrigger as <-. discriminate.
    - rewrite (section_field_absent _ _ _ _ _ _ Habsent Hposition Hside_field) in Hside.
      injection Hside as <-. discriminate. }
  split.
  - destruct (stop_loss_run_of self config h) as (b & evs & -> & Hrun).
    now destruct (Hnone _ _ _ _ Hrun) as [-> ->].
  - destruct (take_profit_run_of self config h) as (b & evs & -> & Hrun).
    now destruct (Hnone _ _ _ _ Hrun) as [-> ->].
Qed.

Lemma incomplete_trigger_refused_witness :
  handle_set_hyperliquid_perp_stop_loss test_executor trade_config [] = (Ok false, [])
  /\ handle_set_hyperliquid_perp_take_profit test_executor trade_config [] = (Ok false, []).
Proof.
  apply (incomplete_trigger_refused test_executor trade_config []).
  right. right. left. vm_compute. reflexivity.
Defined.







Example rejected_order_reports_failure :
  handle_action (base_handlers (executor_with rejecting_client))
                (action "Action" "Execute_Hyperliquid_Perp_Trade" trade_config) []
  = (Ok tt, [IsAuthenticated; ExecutePerpTrade (JStr "BTC") f_0_01 "BUY" (JBool false)])
  /\ handle_hyperliquid_perp_trade (executor_with rejecting_client) trade_config []
     = (Ok false,
        [IsAuthenticated; ExecutePerpTrade (JStr "BTC") f_0_01 "BUY" (JBool false)]).
Proof. split; vm_compute; reflexivity. Qed.

(** C9, as stated, fails: a size of -1 passes the check [if not size] and
    is handed to [execute_perp_trade] as -1.0, which is not positive. *)
Lemma negative_size_reaches_adapter :
  handle_hyperliquid_perp_trade test_executor (trade_with "size" (JInt (-1))) []
  = (Ok true, [IsAuthenticated; ExecutePerpTrade (JStr "BTC") f_minus_1 "BUY" (JBool false)])
  /\ float_positive f_minus_1 = false.
Proof. split; vm_compute; reflexivity. Qed.

(** C9, amended. Whenever the trade handler calls [execute_perp_trade],
    the size it passes is not zero; its sign is not checked. *)
Theorem sizes_sent_are_nonzero
    (self : FractradeExecutor) (config : json) (h : list event)
    (symbol : json) (sz : float) (side : string) (reduce_only : json) :
  ExecutePerpTrade symbol sz side reduce_only
    ∈ snd (handle_hyperliquid_perp_trade self config h) ->
  float_truthy sz = true.
Proof.
  destruct (trade_run_of self config h) as (b & evs & -> & Hrun). simpl.
  destruct Hrun as [n|client position metadata symbol' size_field sz' side_field
                      side' reduce_only' server_execution
                      _ _ _ _ _ _ _ _ _ _ _ Hsize_ok _ _ _].
  - intros Hin. now apply no_trade_in_replicate in Hin.
  - intros Hin. apply list_elem_of_In in Hin.
    destruct Hin as [Hin|[Hin|[]]]; [discriminate|].
    now injection Hin as -> -> -> ->.
Qed.

Lemma sizes_sent_are_nonzero_witness : float_truthy f_minus_1 = true.
Proof.
  apply (sizes_sent_are_nonzero test_executor (trade_with "size" (JInt (-1))) []
           (JStr "BTC") f_minus_1 "BUY" (JBool false)).
  vm_compute. right. left.
Defined.

(** ** Decimal numerals under [float] *)








(** The three messages of the integration test, dispatched in order on
    the mock client. *)
Example integration_test_calls :
  snd (handle_action (base_handlers test_executor)
         (action "ACTION" "execute_hyperliquid_perp_trade" trade_config) [])
  = [IsAuthenticated; ExecutePerpTrade (JStr "BTC") f_0_01 "BUY" (JBool false)]
  /\ snd (handle_action (base_handlers test_executor)
            (action "ACTION" "set_hyperliquid_perp_stop_loss" stop_loss_config) [])
     = [SetStopLoss (JStr "BTC") f_0_01 f_45000 "SELL"]
  /\ snd (handle_action (base_handlers test_executor)
            (action "ACTION" "set_hyperliquid_perp_take_profit" take_profit_config) [])
     = [SetTakeProfit (JStr "BTC") f_0_01 f_55000 "SELL"].
Proof. repeat split; vm_compute; reflexivity. Qed.

(** C3, as stated, fails: with no endpoint URL in the environment,
    [start] returns normally; the error is raised inside the task that
    [start] created and stays there. *)
Lemma missing_settings_not_raised_by_start :
  unset ((∅ : gmap string string) !! "FRAC_WS_URL") = true
  /\ exists self' task,
       start test_executor [] = (Ok self', [])
       /\ connect_task self' = Some task
       /\ task ∅ [ConnectReturns] []
          = (Raise (ValueError "FRAC_WS_URL environment variable not set"), []).
Proof. split; [reflexivity|]. eexists _, _. repeat split. Qed.

(** C3, amended. When the endpoint URL or the token is missing or empty,
    the connection task raises a [ValueError] before any connection
    attempt, whatever the network would have answered.  [start] creates
    that task and returns without raising. *)
Theorem settings_checked_before_connecting
    (self : FractradeExecutor) (environ : gmap string string)
    (script : list completion) (h h' : list event) :
  unset (environ !! "FRAC_WS_URL") = true
  \/ unset (environ !! "FRAC_USER_TOKEN") = true ->
  exists self' task msg,
    start self h = (Ok self', [])
    /\ connect_task self' = Some task
    /\ task environ script h' = (Raise (ValueError msg), []).
Proof.
  intros Hunset. unfold start.
  eexists _, _. simpl.
  destruct (unset (environ !! "FRAC_WS_URL")) eqn:Hurl.
  - eexists. repeat split. unfold _connect. rewrite Hurl. reflexivity.
  - destruct Hunset as [|Htoken]; [discriminate|].
    eexists. repeat split. unfold _connect. rewrite Hurl, Htoken. reflexivity.
Qed.

Lemma settings_checked_before_connecting_witness :
  exists self' task msg,
    start test_executor [] = (Ok self', [])
    /\ connect_task self' = Some task
    /\ task (delete "FRAC_USER_TOKEN" settings) [ConnectReturns] []
       = (Raise (ValueError msg), []).
Proof.
  apply (settings_checked_before_connecting
           test_executor (delete "FRAC_USER_TOKEN" settings) [ConnectReturns] [] []).
  right. vm_compute. reflexivity.
Defined.

(** With both settings, the same task does reach the network. *)
Example settings_present_connects :
  _connect (base_handlers test_executor) true settings
           [ConnectRaises (Failure "refused"); SleepReturns; ConnectReturns;
            RecvReturns None;
            RecvReturns (Some (action "ACTION" "set_hyperliquid_perp_stop_loss"
                                      stop_loss_config));
            RecvRaises ConnectionClosed; Signal; SleepReturns] []
  = (Ok Finished,
     [Connect "ws://localhost:8000/ws/executor/" "Token test-token-123";
      Sleep 5;
      Connect "ws://localhost:8000/ws/executor/" "Token test-token-123";
      SetStopLoss (JStr "BTC") f_0_01 f_45000 "SELL";
      Sleep 5]).
Proof. vm_compute. reflexivity. Qed.

(** ** More on the handlers *)



(** X1. The trade handler places an order only with a client that says
    it is authenticated: when [is_authenticated] answers [False] or
    raises, the handler returns [False] and [execute_perp_trade] is not
    called, whatever the config. *)
Theorem unauthenticated_client_never_trades
    (self : FractradeExecutor) (client : HyperliquidClient)
    (config : json) (h : list event) :
  hl_client self = Some client ->
  is_authenticated client h <> Ok true ->
  exists evs,
    handle_hyperliquid_perp_trade self config h = (Ok false, evs)
    /\ count is_order evs = 0%nat.
Proof.
  intros Hclient Hauth.
  destruct (trade_run_of self config h) as (b & evs & Heq & Hrun).
  destruct Hrun as [n|client' ? ? ? ? ? ? ? ? ? Hclient' _ _ _ _ _ _ _ _ _ _ _ _ _ Hyes].
  - exists (replicate n IsAuthenticated). split; [exact Heq|].
    clear. induction n; simpl; auto.
  - rewrite Hclient in Hclient'. injection Hclient' as <-. contradiction.
Qed.

Lemma unauthenticated_client_never_trades_witness :
  exists evs,
    handle_hyperliquid_perp_trade (executor_with unauthenticated_client) trade_config []
    = (Ok false, evs)
    /\ count is_order evs = 0%nat.
Proof.
  apply (unauthenticated_client_never_trades
           (executor_with unauthenticated_client) unauthenticated_client
           trade_config []).
  - reflexivity.
  - discriminate.
Defined.






(** ** More on the dispatcher *)

Lemma wp_bind {A B} (m : M A) (k : A -> M B) h
    (Q : result B -> list event -> Prop) :
  wp m h (fun r evs =>
            match r with
            | Ok a => wp (k a) (h ++ evs)%list (fun r' evs' => Q r' (evs ++ evs')%list)
            | Raise e => Q (Raise e) evs
            end) ->
  wp (m ≫= k) h Q.
Proof.
  unfold wp, mbind, M_bind. destruct (m h) as [[a|e] evs]; simpl; [|tauto].
  destruct (k a _); tauto.
Qed.

(** A handler called by [handle_action]: its result is dropped, its
    events are kept. *)
Lemma dispatch_eq (handler : M bool) h :
  (_ ← handler; mret tt) h
  = (match fst (handler h) with Ok _ => Ok tt | Raise e => Raise e end,
     snd (handler h)).
Proof.
  unfold mbind, M_bind, mret, M_ret.
  destruct (handler h) as [[b|e] evs]; simpl; [|reflexivity].
  now rewrite app_nil_r.
Qed.

Ltac dispatch :=
  unfold wp at 1; rewrite dispatch_eq; simpl;
  lazymatch goal with
  | |- match match ?r with _ => _ end with _ => _ end => destruct r
  end; simpl; [|apply wp_ret; rewrite ?app_nil_r]; auto 6.

(** Every run of [handle_action]: nothing, or the events of one handler
    on the config of the message. *)
Lemma handle_action_run (methods : Handlers) (data : json) (h : list event) :
  exists evs,
    handle_action methods data h = (Ok tt, evs)
    /\ (evs = []
        \/ evs = snd (trade_handler methods (action_config data) h)
        \/ evs = snd (stop_loss_handler methods (action_config data) h)
        \/ evs = snd (take_profit_handler methods (action_config data) h)).
Proof.
  assert (Hwp : wp (handle_action methods data) h
                   (fun r evs =>
                      r = Ok tt
                      /\ (evs = []
                          \/ evs = snd (trade_handler methods (action_config data) h)
                          \/ evs = snd (stop_loss_handler methods (action_config data) h)
                          \/ evs = snd (take_profit_handler methods
                                          (action_config data) h)))).
  { unfold handle_action, action_config. apply wp_try_except.
    lift_step type_field Htype ltac:(apply wp_ret; auto).
    lift_step mtype Hupper ltac:(apply wp_ret; auto).
    destruct (String.eqb mtype "ACTION"); [|apply wp_ret; auto].
    lift_step action_data Hdata ltac:(apply wp_ret; auto).
    lift_step id_field Hid ltac:(apply wp_ret; auto).
    lift_step aid Hlower ltac:(apply wp_ret; auto).
    lift_step config Hconfig ltac:(apply wp_ret; auto).
    destruct (String.eqb aid "execute_hyperliquid_perp_trade");
      [dispatch|].
    destruct (String.eqb aid "set_hyperliquid_perp_stop_loss");
      [dispatch|].
    destruct (String.eqb aid "set_hyperliquid_perp_take_profit");
      [dispatch|].
    apply wp_ret; auto. }
  unfold wp in Hwp. destruct (handle_action methods data h) as [r evs].
  simpl in Hwp. destruct Hwp as [-> Hevs]. eauto.
Qed.

(** X4. A message whose type is ACTION in any case and whose action id
    is, in any case, one of the three known ones goes to the handler of
    that id and to no other, with the [config] of the message; what the
    handler returns or raises is dropped. *)
Theorem known_actions_are_routed
    (methods : Handlers) (data : json) (h : list event) :
  message_type data = Ok "ACTION" ->
  (action_id data = Ok "execute_hyperliquid_perp_trade" ->
   handle_action methods data h
   = (Ok tt, snd (trade_handler methods (action_config data) h)))
  /\ (action_id data = Ok "set_hyperliquid_perp_stop_loss" ->
      handle_action methods data h
      = (Ok tt, snd (stop_loss_handler methods (action_config data) h)))
  /\ (action_id data = Ok "set_hyperliquid_perp_take_profit" ->
      handle_action methods data h
      = (Ok tt, snd (take_profit_handler methods (action_config data) h))).
Proof.
  unfold message_type, action_id, action_config. intros Htype.
  destruct (get data "type" (JStr EmptyString)) as [type_field|] eqn:Hfield;
    [|discriminate].
  repeat split; intros Hid;
    destruct (get data "data" (JDict ∅)) as [action_data|] eqn:Hdata;
    try discriminate;
    destruct (get action_data "action_id" (JStr EmptyString)) as [id_field|] eqn:Hidf;
    try discriminate;
    (assert (Hconfig : exists config, get action_data "config" (JDict ∅) = Ok config)
      by (destruct action_data; try discriminate; simpl; eauto));
    destruct Hconfig as [config Hconfig]; rewrite Hconfig;
    unfold handle_action; apply wp_eq, wp_try_except;
    do 6 forward; dispatch.
Qed.

Lemma known_actions_are_routed_witness :
  handle_action (base_handlers test_executor)
    (action "Action" "SET_HYPERLIQUID_PERP_STOP_LOSS" stop_loss_config) []
  = (Ok tt,
     snd (stop_loss_handler (base_handlers test_executor)
            (action_config
               (action "Action" "SET_HYPERLIQUID_PERP_STOP_LOSS" stop_loss_config))
            [])).
Proof.
  apply (known_actions_are_routed (base_handlers test_executor)
           (action "Action" "SET_HYPERLIQUID_PERP_STOP_LOSS" stop_loss_config) []);
    vm_compute; reflexivity.
Defined.

Lemma count_app p evs evs' :
  count p (evs ++ evs') = (count p evs + count p evs')%nat.
Proof. induction evs as [|e evs IH]; simpl; [reflexivity|]. rewrite IH. lia. Qed.

Lemma trade_run_trace self config h b evs :
  trade_run self config h b evs -> handler_trace evs.
Proof.
  intros [n|]; [|repeat split; simpl; lia].
  unfold handler_trace. induction n as [|n (IH1 & IH2 & IH3)]; simpl; auto.
Qed.

Lemma trigger_run_trace placed place self config h b evs :
  (forall s z t d, is_order (placed s z t d) = true
                   /\ is_connect (placed s z t d) = false
                   /\ is_sleep (placed s z t d) = false) ->
  trigger_run placed place self config h b evs -> handler_trace evs.
Proof.
  intros Hplaced [|? ? symbol ? sz ? trigger_price ? side];
    [repeat split; simpl; lia|].
  destruct (Hplaced symbol sz trigger_price side) as (Horder & Hconn & Hsleep).
  unfold handler_trace. simpl. rewrite Horder, Hconn, Hsleep. auto.
Qed.

Lemma base_handle_action_trace self data h :
  exists evs,
    handle_action (base_handlers self) data h = (Ok tt, evs) /\ handler_trace evs.
Proof.
  destruct (handle_action_run (base_handlers self) data h)
    as (evs & Heq & [-> | [-> | [-> | ->]]]); eexists; (split; [exact Heq|]); simpl.
  - repeat split; simpl; lia.
  - destruct (trade_run_of self (action_config data) h) as (b & evs & -> & Hrun).
    exact (trade_run_trace _ _ _ _ _ Hrun).
  - destruct (stop_loss_run_of self (action_config data) h) as (b & evs & -> & Hrun).
    apply (trigger_run_trace _ _ _ _ _ _ _) with (2 := Hrun). intros; auto.
  - destruct (take_profit_run_of self (action_config data) h) as (b & evs & -> & Hrun).
    apply (trigger_run_trace _ _ _ _ _ _ _) with (2 := Hrun). intros; auto.
Qed.

(** X5. One message places at most one order: whatever the message, the
    dispatcher with the handlers of [FractradeExecutor] calls at most one
    of [execute_perp_trade], [set_stop_loss] and [set_take_profit], and
    that at most once. *)
Theorem one_message_at_most_one_order
    (self : FractradeExecutor) (data : json) (h : list event) :
  (count is_order (snd (handle_action (base_handlers self) data h)) <= 1)%nat.
Proof.
  destruct (base_handle_action_trace self data h) as (evs & -> & Hevs & _).
  exact Hevs.
Qed.

(** ** The connection loop *)

Lemma quiet_trace_ok url auth evs :
  count is_connect evs = 0%nat -> count is_sleep evs = 0%nat ->
  Forall (loop_event_ok url auth) evs.
Proof.
  induction evs as [|e evs IH]; simpl; intros Hc Hs; constructor.
  - destruct e; simpl in *; auto; lia.
  - apply IH; destruct e; simpl in *; lia.
Qed.

(** One resumption never raises, whatever the handlers are. *)
Lemma on_completion_returns methods url auth st c h :
  exists st' evs, on_completion methods url auth st c h = (Ok st', evs).
Proof.
  destruct st as [phase running].
  destruct c as [| e |[data|]| e | |]; destruct phase; destruct running;
    try destruct e; simpl;
    unfold loop_head, emit, mbind, M_bind, mret, M_ret, try_except, raise; simpl;
    try (destruct (handle_action_run methods data h) as (evs & -> & _); simpl);
    eauto.
Qed.

Lemma connection_loop_returns methods url auth script st h :
  exists st' evs, connection_loop methods url auth script st h = (Ok st', evs).
Proof.
  revert st h. induction script as [|c script IH]; intros st h; simpl.
  - unfold mret, M_ret. eauto.
  - unfold mbind, M_bind.
    destruct (on_completion_returns methods url auth st c h) as (st1 & evs1 & ->).
    destruct (IH st1 (h ++ evs1)%list) as (st2 & evs2 & ->). eauto.
Qed.

(** [_connect] once both settings are there: the first test of the
    loop, then the loop. *)
Lemma _connect_run methods (running : bool) (environ : gmap string string)
    script h :
  unset (environ !! "FRAC_WS_URL") = false ->
  unset (environ !! "FRAC_USER_TOKEN") = false ->
  let full_url :=
    rstrip is_slash (default EmptyString (environ !! "FRAC_WS_URL"))
    ++ "/ws/executor/" in
  let authorization := "Token " ++ default EmptyString (environ !! "FRAC_USER_TOKEN") in
  let opening := if running then [Connect full_url authorization] else [] in
  exists st evs,
    connection_loop methods full_url authorization script
      (if running then Connecting else Finished, running) (h ++ opening)%list
    = (Ok st, evs)
    /\ _connect methods running environ script h = (Ok (fst st), (opening ++ evs)%list).
Proof.
  intros Hurl Htoken full_url authorization opening.
  destruct (connection_loop_returns methods full_url authorization script
              (if running then Connecting else Finished, running) (h ++ opening)%list)
    as (st & evs & Hloop).
  exists st, evs. split; [exact Hloop|].
  unfold _connect. rewrite Hurl, Htoken. fold full_url authorization.
  unfold loop_head, emit, mbind, M_bind, mret, M_ret.
  subst opening. destruct running; simpl in *; rewrite Hloop; simpl;
    now rewrite ?app_nil_r.
Qed.



(** One resumption with the handlers of [FractradeExecutor]: what it
    adds to the trace and how it moves the two measures. *)
Lemma on_completion_step self url auth phase (running : bool) c h :
  exists phase' (running' : bool) evs,
    on_completion (base_handlers self) url auth (phase, running) c h
    = (Ok (phase', running'), evs)
    /\ Forall (loop_event_ok url auth) evs
    /\ (count is_connect evs + waited phase' <= count is_sleep evs + waited phase)%nat
    /\ (running = false ->
        running' = false /\ count is_connect evs = 0%nat
        /\ (count is_order evs + frames_left phase' <= frames_left phase)%nat).
Proof.
  destruct c as [| e |[data|]| e | |]; destruct phase; destruct running;
    try destruct e; simpl;
    unfold loop_head, emit, mbind, M_bind, mret, M_ret, try_except, raise; simpl;
    try (destruct (base_handle_action_trace self data h)
           as (evs & -> & Horders & Hconnects & Hsleeps); simpl;
         pose proof (quiet_trace_ok url auth evs Hconnects Hsleeps));
    eexists _, _, _; (split; [reflexivity|]); simpl;
    rewrite ?app_nil_r; try rewrite Hconnects; try rewrite Hsleeps;
    (split;
     [first [assumption
            |repeat first [apply List.Forall_nil
                          |apply List.Forall_cons; [simpl; auto|]]]|]);
    (split; [simpl; lia|]);
    intros Hstop; try discriminate Hstop;
    repeat split; simpl; auto; lia.
Qed.

Lemma connection_loop_run self url auth script phase (running : bool) h :
  exists phase' (running' : bool) evs,
    connection_loop (base_handlers self) url auth script (phase, running) h
    = (Ok (phase', running'), evs)
    /\ Forall (loop_event_ok url auth) evs
    /\ (count is_connect evs + waited phase' <= count is_sleep evs + waited phase)%nat
    /\ (running = false ->
        count is_connect evs = 0%nat
        /\ (count is_order evs <= frames_left phase)%nat).
Proof.
  revert phase running h.
  induction script as [|c script IH]; intros phase running h.
  { exists phase, running, []. repeat split; simpl; auto; lia. }
  cbn [connection_loop]. unfold mbind, M_bind.
  destruct (on_completion_step self url auth phase running c h)
    as (phase1 & running1 & evs1 & -> & Hok1 & Hwait1 & Hstop1).
  destruct (IH phase1 running1 (h ++ evs1)%list)
    as (phase2 & running2 & evs2 & -> & Hok2 & Hwait2 & Hstop2).
  exists phase2, running2, (evs1 ++ evs2)%list.
  rewrite !count_app. repeat split.
  - apply Forall_app; auto.
  - lia.
  - destruct (Hstop1 H) as (-> & ? & _). destruct Hstop2; auto. lia.
  - destruct (Hstop1 H) as (-> & _ & ?). destruct Hstop2; auto. lia.
Qed.

(** X7. With both settings in place, every connection attempt of a run
    of [_connect] goes to the same address, the endpoint URL without its
    trailing slashes followed by /ws/executor/, with the same header,
    Token and the token; and every wait is of 5 seconds. *)
Theorem reconnects_reuse_url_and_delay
    (self : FractradeExecutor) (running : bool) (environ : gmap string string)
    (script : list completion) (h : list event) (ws_url user_token : string) :
  environ !! "FRAC_WS_URL" = Some ws_url -> ws_url <> EmptyString ->
  environ !! "FRAC_USER_TOKEN" = Some user_token -> user_token <> EmptyString ->
  Forall (loop_event_ok (rstrip is_slash ws_url ++ "/ws/executor/")
                        ("Token " ++ user_token))
         (snd (_connect (base_handlers self) running environ script h)).
Proof.
  intros Hurl Hurl_set Htoken Htoken_set.
  destruct (_connect_run (base_handlers self) running environ script h)
    as (st & evs & Hloop & ->).
  { rewrite Hurl. now destruct ws_url. }
  { rewrite Htoken. now destruct user_token. }
  rewrite Hurl, Htoken in *. simpl in *.
  destruct st as [phase' running'].
  lazymatch type of Hloop with
  | connection_loop _ ?url ?auth _ _ ?h' = _ =>
      destruct (connection_loop_run self url auth script
                  (if running then Connecting else Finished) running h')
        as (? & ? & evs' & Hloop' & Hok & _)
  end.
  rewrite Hloop in Hloop'. injection Hloop' as <- <- <-.
  apply Forall_app. split; [|exact Hok].
  destruct running; repeat constructor.
Qed.

Lemma reconnects_reuse_url_and_delay_witness :
  Forall (loop_event_ok (rstrip is_slash "ws://localhost:8000/" ++ "/ws/executor/")
                        ("Token " ++ "test-token-123"))
         (snd (_connect (base_handlers test_executor) true settings
                 [ConnectRaises (Failure "refused"); SleepReturns; ConnectReturns;
                  RecvRaises ConnectionClosed; SleepReturns] [])).
Proof.
  apply (reconnects_reuse_url_and_delay test_executor true settings
           [ConnectRaises (Failure "refused"); SleepReturns; ConnectReturns;
            RecvRaises ConnectionClosed; SleepReturns] []
           "ws://localhost:8000/" "test-token-123");
    solve [vm_compute; reflexivity | discriminate].
Defined.

(** X8. No reconnection without a wait: in a run of [_connect] the
    connection attempts are at most one more than the waits. *)
Theorem every_reconnect_follows_a_wait
    (self : FractradeExecutor) (running : bool) (environ : gmap string string)
    (script : list completion) (h : list event) :
  unset (environ !! "FRAC_WS_URL") = false ->
  unset (environ !! "FRAC_USER_TOKEN") = false ->
  let evs := snd (_connect (base_handlers self) running environ script h) in
  (count is_connect evs <= 1 + count is_sleep evs)%nat.
Proof.
  intros Hurl Htoken.
  destruct (_connect_run (base_handlers self) running environ script h Hurl Htoken)
    as (st & evs & Hloop & ->).
  simpl in *. destruct st as [phase' running'].
  lazymatch type of Hloop with
  | connection_loop _ ?url ?auth _ _ ?h' = _ =>
      destruct (connection_loop_run self url auth script
                  (if running then Connecting else Finished) running h')
        as (? & ? & evs' & Hloop' & _ & Hwait & _)
  end.
  rewrite Hloop in Hloop'. injection Hloop' as <- <- <-.
  rewrite !count_app.
  destruct running; simpl in *; lia.
Qed.

Lemma every_reconnect_follows_a_wait_witness :
  let evs :=
    snd (_connect (base_handlers test_executor) true settings
           [ConnectRaises (Failure "refused"); SleepReturns; ConnectReturns;
            RecvRaises ConnectionClosed; SleepReturns] []) in
  (count is_connect evs <= 1 + count is_sleep evs)%nat.
Proof.
  apply (every_reconnect_follows_a_wait test_executor true settings);
    vm_compute; reflexivity.
Defined.

(** X9. Once a termination signal has cleared [running], the loop makes
    no further connection attempt, and at most one more order is placed:
    the one of a frame that was already on its way. *)
Theorem stop_request_ends_the_loop
    (self : FractradeExecutor) (url auth : string) (script : list completion)
    (phase : conn_state) (running : bool) (h : list event) :
  let evs := snd (connection_loop (base_handlers self) url auth
                    (Signal :: script) (phase, running) h) in
  count is_connect evs = 0%nat /\ (count is_order evs <= 1)%nat.
Proof.
  cbn [connection_loop on_completion]. unfold mbind, M_bind, mret, M_ret.
  destruct (connection_loop_run self url auth script phase false (h ++ [])%list)
    as (phase' & running' & evs & -> & _ & _ & Hstop).
  destruct (Hstop eq_refl) as [Hconnects Horders]. simpl. split; [exact Hconnects|].
  destruct phase; simpl in Horders; lia.
Qed.

(** X10. A frame that is not valid JSON is skipped: the loop goes on
    exactly as if the frame had not arrived, whatever the handlers. *)
Theorem malformed_frame_is_skipped
    (methods : Handlers) (url auth : string) (script : list completion)
    (h : list event) :
  connection_loop methods url auth (RecvReturns None :: script) (Receiving, true) h
  = connection_loop methods url auth script (Receiving, true) h.
Proof.
  cbn [connection_loop on_completion].
  unfold mbind, M_bind, mret, M_ret, try_except, raise. simpl.
  rewrite app_nil_r. now destruct (connection_loop methods url auth script _ h).
Qed.

Lemma finished_stays_finished methods url auth script (running : bool) h :
  exists running' : bool,
    connection_loop methods url auth script (Finished, running) h
    = (Ok (Finished, running'), []).
Proof.
  revert running h. induction script as [|c script IH]; intros running h.
  { exists running. reflexivity. }
  cbn [connection_loop]. unfold mbind, M_bind.
  destruct c as [| e |[data|]| e | |]; try destruct e; simpl;
    unfold mret, M_ret; simpl;
    match goal with
    | |- context [connection_loop _ _ _ _ (Finished, ?r) ?h'] =>
        destruct (IH r h') as [running' ->]
    end; eauto.
Qed.

(** X11. When [running] is already false as the task starts, as after a
    [stop] that came first, [_connect] returns at once: no connection is
    attempted and no frame is handled. *)
Theorem stopped_before_start_never_connects
    (methods : Handlers) (environ : gmap string string)
    (script : list completion) (h : list event) :
  unset (environ !! "FRAC_WS_URL") = false ->
  unset (environ !! "FRAC_USER_TOKEN") = false ->
  _connect methods false environ script h = (Ok Finished, []).
Proof.
  intros Hurl Htoken.
  destruct (_connect_run methods false environ script h Hurl Htoken)
    as (st & evs & Hloop & ->).
  simpl in *.
  match type of Hloop with
  | connection_loop _ ?url ?auth _ _ ?h' = _ =>
      destruct (finished_stays_finished methods url auth script false h')
        as [running' Hfinished]
  end.
  rewrite Hfinished in Hloop. now injection Hloop as <- <-.
Qed.

Lemma stopped_before_start_never_connects_witness :
  _connect (base_handlers test_executor) false settings
    [ConnectReturns;
     RecvReturns (Some (action "ACTION" "execute_hyperliquid_perp_trade" trade_config))]
    []
  = (Ok Finished, []).
Proof.
  apply (stopped_before_start_never_connects (base_handlers test_executor) settings);
    vm_compute; reflexivity.
Defined.

Lemma rstrip_last p s c :
  p c = true -> rstrip p (s ++ String c EmptyString) = rstrip p s.
Proof.
  intros Hc. induction s as [|c' s IH]; simpl.
  - now rewrite Hc.
  - now rewrite IH.
Qed.

(** X12. Trailing slashes of the endpoint URL do not matter: with one
    more slash at its end, [_connect] does exactly the same. *)
Theorem trailing_slash_does_not_matter
    (methods : Handlers) (running : bool) (environ : gmap string string)
    (script : list completion) (h : list event) (ws_url : string) :
  ws_url <> EmptyString ->
  _connect methods running (<["FRAC_WS_URL" := ws_url ++ "/"]> environ) script h
  = _connect methods running (<["FRAC_WS_URL" := ws_url]> environ) script h.
Proof.
  intros Hset. unfold _connect.
  rewrite !lookup_insert_eq, !lookup_insert_ne by discriminate.
  simpl. rewrite (rstrip_last is_slash ws_url "/") by reflexivity.
  destruct ws_url; [contradiction|reflexivity].
Qed.

Lemma trailing_slash_does_not_matter_witness :
  _connect (base_handlers test_executor) true
    (<["FRAC_WS_URL" := "ws://localhost:8000" ++ "/"]> settings) [ConnectReturns] []
  = _connect (base_handlers test_executor) true
      (<["FRAC_WS_URL" := "ws://localhost:8000"]> settings) [ConnectReturns] [].
Proof.
  apply (trailing_slash_does_not_matter (base_handlers test_executor) true settings
           [ConnectReturns] [] "ws://localhost:8000").
  discriminate.
Defined.

(** ** Construction and teardown *)

(** X13. With the private key or the public address missing or empty, the
    key is never handed to [HyperliquidAccount.from_key] and no client is
    built with an account: what the executor gets is what
    [HyperliquidClient()] gives. *)
Theorem incomplete_credentials_build_plain_client
    {Account : Type} (lib : HyperliquidLib Account)
    (environ : gmap string string) :
  unset (environ !! "HYPERLIQUID_PRIVATE_KEY") = true
  \/ unset (environ !! "HYPERLIQUID_PUBLIC_ADDRESS") = true ->
  fst (_init_hyperliquid_client lib environ) = new_client lib None
  /\ Forall (fun call => call = NewClient false)
            (snd (_init_hyperliquid_client lib environ)).
Proof.
  intros Hunset. unfold _init_hyperliquid_client.
  assert (Hboth : (negb (unset (environ !! "HYPERLIQUID_PRIVATE_KEY"))
                   && negb (unset (environ !! "HYPERLIQUID_PUBLIC_ADDRESS")))%bool
                  = false).
  { destruct Hunset as [-> | ->]; [reflexivity|apply andb_false_r]. }
  rewrite Hboth.
  destruct (new_client lib None) eqn:Hplain; simpl; rewrite ?Hplain;
    split; auto; repeat apply List.Forall_cons; auto.
Qed.

Lemma incomplete_credentials_build_plain_client_witness :
  fst (_init_hyperliquid_client sample_lib (delete "HYPERLIQUID_PUBLIC_ADDRESS" credentials))
  = new_client sample_lib None
  /\ Forall (fun call => call = NewClient false)
            (snd (_init_hyperliquid_client sample_lib
                    (delete "HYPERLIQUID_PUBLIC_ADDRESS" credentials))).
Proof.
  apply (incomplete_credentials_build_plain_client sample_lib
           (delete "HYPERLIQUID_PUBLIC_ADDRESS" credentials)).
  right. vm_compute. reflexivity.
Defined.

(** X14. As long as [HyperliquidClient()] itself works, the executor
    always gets a client and [_init_hyperliquid_client] does not raise:
    a key that [from_key] rejects, or a client that cannot be built with
    the account, ends in the plain client.  A client built with an
    account needs both credentials and an account from [from_key]. *)
Theorem client_construction_falls_back
    {Account : Type} (lib : HyperliquidLib Account)
    (environ : gmap string string) (plain : HyperliquidClient) :
  new_client lib None = Ok plain ->
  exists client,
    fst (_init_hyperliquid_client lib environ) = Ok client
    /\ (client = plain
        \/ exists key address account,
             environ !! "HYPERLIQUID_PRIVATE_KEY" = Some key
             /\ environ !! "HYPERLIQUID_PUBLIC_ADDRESS" = Some address
             /\ from_key lib key address = Ok account
             /\ new_client lib (Some account) = Ok client).
Proof.
  intros Hplain. unfold _init_hyperliquid_client.
  destruct (environ !! "HYPERLIQUID_PRIVATE_KEY") as [key|];
    destruct (environ !! "HYPERLIQUID_PUBLIC_ADDRESS") as [address|]; simpl;
    rewrite ?andb_false_r, ?Hplain; eauto.
  destruct (negb (is_empty key) && negb (is_empty address))%bool;
    rewrite ?Hplain; eauto.
  destruct (from_key lib key address) as [account|] eqn:Hkey; simpl;
    rewrite ?Hplain; eauto.
  destruct (new_client lib (Some account)) as [client|] eqn:Hclient; simpl;
    rewrite ?Hplain; eauto 10.
Qed.

Lemma client_construction_falls_back_witness :
  exists client,
    fst (_init_hyperliquid_client sample_lib
           (<["HYPERLIQUID_PRIVATE_KEY" := "not-a-key"]> credentials))
    = Ok client
    /\ (client = unauthenticated_client
        \/ exists key address account,
             (<["HYPERLIQUID_PRIVATE_KEY" := "not-a-key"]> credentials)
               !! "HYPERLIQUID_PRIVATE_KEY" = Some key
             /\ (<["HYPERLIQUID_PRIVATE_KEY" := "not-a-key"]> credentials)
                  !! "HYPERLIQUID_PUBLIC_ADDRESS" = Some address
             /\ from_key sample_lib key address = Ok account
             /\ new_client sample_lib (Some account) = Ok client).
Proof.
  apply (client_construction_falls_back sample_lib
           (<["HYPERLIQUID_PRIVATE_KEY" := "not-a-key"]> credentials)
           unauthenticated_client).
  reflexivity.
Defined.

Example construction_samples :
  snd (_init_hyperliquid_client sample_lib credentials)
  = [FromKey "test-private-key" "test-public-address"; NewClient true]
  /\ snd (_init_hyperliquid_client sample_lib
            (<["HYPERLIQUID_PRIVATE_KEY" := "not-a-key"]> credentials))
     = [FromKey "not-a-key" "test-public-address"; NewClient false]
  /\ snd (_init_hyperliquid_client sample_lib ∅) = [NewClient false].
Proof. repeat split; vm_compute; reflexivity. Qed.

(** What a [stop] that returned leaves behind. *)
Lemma stop_returned world st st' evs :
  stop world st = (Ok tt, st', evs) ->
  hl_client (executor st') = None
  /\ running (executor st') = false
  /\ shutdown_event (executor st') = true
  /\ websocket st' = false
  /\ task_pending st' = false.
Proof.
  destruct st as [[client running0 shutdown task] socket done].
  destruct world as [[| |e] [[]|e1] [[]|e2]];
    destruct client, task, socket, done; simpl; intros [= <- <-]; simpl; auto.
Qed.

(** X15. [stop] can be called again: after a [stop] that returned, a
    second one finds nothing to cancel or close, touches no resource and
    returns, leaving everything as it is. *)
Theorem stop_twice_is_stop_once
    (world world' : Teardown) (st st' : Live) (evs : list teardown_event) :
  stop world st = (Ok tt, st', evs) ->
  stop world' st' = (Ok tt, st', []).
Proof.
  intros Hstop. apply stop_returned in Hstop.
  destruct st' as [[client running0 shutdown task] socket done].
  simpl in Hstop. destruct Hstop as (-> & -> & -> & -> & Hpending).
  unfold stop, task_pending in *. simpl in *. rewrite Hpending. reflexivity.
Qed.

Lemma stop_twice_is_stop_once_witness :
  stop broken_socket (snd (fst (stop calm connected)))
  = (Ok tt, snd (fst (stop calm connected)), []).
Proof.
  apply (stop_twice_is_stop_once calm broken_socket connected
           (snd (fst (stop calm connected))) (snd (stop calm connected))).
  reflexivity.
Defined.

(** X16. After a [stop] that returned the executor has no client, and
    every handler refuses: it returns [False] and does nothing. *)
Theorem handlers_refuse_after_stop
    (world : Teardown) (st st' : Live) (evs : list teardown_event)
    (config : json) (h : list event) :
  stop world st = (Ok tt, st', evs) ->
  handle_hyperliquid_perp_trade (executor st') config h = (Ok false, [])
  /\ handle_set_hyperliquid_perp_stop_loss (executor st') config h = (Ok false, [])
  /\ handle_set_hyperliquid_perp_take_profit (executor st') config h = (Ok false, []).
Proof.
  intros Hstop. apply stop_returned in Hstop as [Hclient _].
  unfold handle_hyperliquid_perp_trade, handle_set_hyperliquid_perp_stop_loss,
    handle_set_hyperliquid_perp_take_profit.
  rewrite Hclient. auto.
Qed.

Lemma handlers_refuse_after_stop_witness :
  handle_hyperliquid_perp_trade
    (executor (snd (fst (stop calm connected)))) trade_config [] = (Ok false, [])
  /\ handle_set_hyperliquid_perp_stop_loss
       (executor (snd (fst (stop calm connected)))) trade_config [] = (Ok false, [])
  /\ handle_set_hyperliquid_perp_take_profit
       (executor (snd (fst (stop calm connected)))) trade_config [] = (Ok false, []).
Proof.
  apply (handlers_refuse_after_stop calm connected
           (snd (fst (stop calm connected))) (snd (stop calm connected))
           trade_config []).
  reflexivity.
Defined.



(** X18. [stop] lets go of its resources in one order only: the task,
    then the socket, then the client, each at most once, whatever fails
    on the way. *)
Theorem stop_releases_in_order (world : Teardown) (st : Live) :
  sublist (snd (stop world st)) [CancelTask; CloseSocket; CloseClient].
Proof.
  destruct st as [[client running0 shutdown task] socket done].
  destruct world as [[| |e] [[]|e1] [[]|e2]];
    destruct client, task, socket, done; simpl; repeat constructor.
Qed.

(** ** What the handlers read *)

(** X19. The handlers read [position] (the trade handler [metadata] as
    well) and nothing else of a config: two configs that agree there are
    handled alike, so fields the executor does not know change
    nothing. *)
Theorem handlers_read_position_and_metadata_only
    (self : FractradeExecutor) (config config' : json) (h : list event) :
  get config "position" (JDict ∅) = get config' "position" (JDict ∅) ->
  (get config "metadata" (JDict ∅) = get config' "metadata" (JDict ∅) ->
   handle_hyperliquid_perp_trade self config h
   = handle_hyperliquid_perp_trade self config' h)
  /\ handle_set_hyperliquid_perp_stop_loss self config h
     = handle_set_hyperliquid_perp_stop_loss self config' h
  /\ handle_set_hyperliquid_perp_take_profit self config h
     = handle_set_hyperliquid_perp_take_profit self config' h.
Proof.
  intros Hposition.
  unfold handle_hyperliquid_perp_trade, handle_set_hyperliquid_perp_stop_loss,
    handle_set_hyperliquid_perp_take_profit.
  destruct (hl_client self) as [client|]; [|auto].
  unfold try_except, mbind, M_bind, lift.
  rewrite Hposition. repeat split.
  intros ->. reflexivity.
Qed.

Lemma handlers_read_position_and_metadata_only_witness :
  handle_hyperliquid_perp_trade test_executor trade_config []
  = handle_hyperliquid_perp_trade test_executor annotated_trade_config []
  /\ handle_set_hyperliquid_perp_stop_loss test_executor trade_config []
     = handle_set_hyperliquid_perp_stop_loss test_executor annotated_trade_config []
  /\ handle_set_hyperliquid_perp_take_profit test_executor trade_config []
     = handle_set_hyperliquid_perp_take_profit test_executor annotated_trade_config [].
Proof.
  destruct (handlers_read_position_and_metadata_only
              test_executor trade_config annotated_trade_config [])
    as (Htrade & Hstop & Htake).
  - vm_compute. reflexivity.
  - split; [apply Htrade; vm_compute; reflexivity|]. split; assumption.
Defined.
